(** * supabaseClient.ts: environment resolution, validation, client handle, probe

    A shallow embedding of [src/supabaseClient.ts].  The module is
    initialisation glue: it reads four environment variables, derives a
    validity flag, builds one client handle and exports an asynchronous
    connectivity probe.  JavaScript values are embedded as a small inductive
    type, the module's side effects (console, client creation and queries,
    bindings on the global scope) as a state-and-exception monad over an
    explicit world.  The backend library is not part of the repository: what
    its [createClient] and its queries do is a parameter of the world. *)

From Stdlib Require Import ZArith Lia Ascii.
From stdpp Require Import base option strings gmap.

Local Open Scope string_scope.

(** ** JavaScript values *)

(** A JavaScript string is embedded as a Rocq [string]; one character stands
    for one UTF-16 code unit, so [String.length] is the [.length] property. *)

#[warnings="-register-all"]
Inductive JSValue : Type :=
| JSUndefined
| JSNull
| JSBool (b : bool)
| JSNum (n : Z)
| JSStr (s : string)
| JSArr (items : list JSValue)
| JSObj (fields : list (string * JSValue)).

(** ToBoolean: [undefined], [null], [false], [0] and the empty string are
    falsy; every other value (any array, any object) is truthy. *)
Definition truthy (v : JSValue) : bool :=
  match v with
  | JSUndefined | JSNull => false
  | JSBool b => b
  | JSNum n => negb (n =? 0)%Z
  | JSStr s => negb (String.eqb s "")
  | JSArr _ | JSObj _ => true
  end.

(** [a && b] evaluates to [a] when [a] is falsy and to [b] otherwise. *)
Definition js_and (a b : JSValue) : JSValue := if truthy a then b else a.

(** Own data property of an object literal, first binding of the name. *)
Fixpoint own_prop (fields : list (string * JSValue)) (name : string) : option JSValue :=
  match fields with
  | [] => None
  | (k, v) :: rest => if String.eqb k name then Some v else own_prop rest name
  end.

Definition has_field (v : JSValue) (name : string) : bool :=
  match v with
  | JSObj fields => match own_prop fields name with Some _ => true | None => false end
  | _ => false
  end.

(** ** String operations used by the validator *)

(** [s.startsWith(p)]: the code units of [p] are the first ones of [s]. *)
Fixpoint startsWith (p s : string) : bool :=
  match p, s with
  | EmptyString, _ => true
  | String _ _, EmptyString => false
  | String a p', String b s' => Ascii.eqb a b && startsWith p' s'
  end.

(** [s.includes(needle)]: [needle] occurs at some position of [s]. *)
Fixpoint includes (needle s : string) : bool :=
  startsWith needle s ||
  match s with
  | EmptyString => false
  | String _ rest => includes needle rest
  end.

(** ** Configuration validator (supabaseClient.ts, lines 36-43) *)

(** [!!(supabaseUrl && supabaseAnonKey && !supabaseUrl.includes('placeholder')
       && supabaseUrl.length > 0 && supabaseUrl.startsWith('https://')
       && supabaseAnonKey.length > 20)];
    [&&] associates to the left. *)
Definition isSupabaseConfigured (supabaseUrl supabaseAnonKey : string) : bool :=
  truthy
    (js_and
      (js_and
        (js_and
          (js_and
            (js_and (JSStr supabaseUrl) (JSStr supabaseAnonKey))
            (JSBool (negb (includes "placeholder" supabaseUrl))))
          (JSBool (0 <? String.length supabaseUrl)%nat))
        (JSBool (startsWith "https://" supabaseUrl)))
      (JSBool (20 <? String.length supabaseAnonKey)%nat)).

(** ** Exceptions and property access *)

(** Completion of an evaluation: a value, or a raised JavaScript value
    (for the [async] probe: the promise fulfils, or rejects). *)
Inductive Result (A : Type) : Type :=
| Ok (a : A)
| Throw (e : JSValue).
Arguments Ok {A} a.
Arguments Throw {A} e.

Definition TypeError (message : string) : JSValue :=
  JSObj [("name", JSStr "TypeError"); ("message", JSStr message)].

Definition ReferenceError (message : string) : JSValue :=
  JSObj [("name", JSStr "ReferenceError"); ("message", JSStr message)].

Definition nullish (v : JSValue) : bool :=
  match v with
  | JSUndefined | JSNull => true
  | _ => false
  end.

(** [v.name] or [v[name]] on data properties.  Reading a property of
    [undefined] or [null] raises a TypeError; a missing property reads as
    [undefined]. *)
Definition get_prop (v : JSValue) (name : string) : Result JSValue :=
  match v with
  | JSUndefined =>
      Throw (TypeError ("Cannot read properties of undefined (reading '" +:+ name +:+ "')"))
  | JSNull =>
      Throw (TypeError ("Cannot read properties of null (reading '" +:+ name +:+ "')"))
  | JSObj fields => Ok (default JSUndefined (own_prop fields name))
  | JSStr s =>
      Ok (if String.eqb name "length" then JSNum (Z.of_nat (String.length s)) else JSUndefined)
  | JSArr items =>
      Ok (if String.eqb name "length" then JSNum (Z.of_nat (length items)) else JSUndefined)
  | JSBool _ | JSNum _ => Ok JSUndefined
  end.

(** ** The world the module runs in *)

(** One of the two environment sources, [import.meta] or [process]. *)
Inductive EnvHost : Type :=
| HostAbsent                          (* [typeof host === 'undefined'] *)
| HostWithoutEnv                      (* the host exists, [host.env] is undefined *)
| HostEnv (env : gmap string string)  (* [host.env] maps names to strings *)
| HostRaises (e : JSValue).           (* the host exists, reading [host.env] raises [e] *)

(** The client handle: the object a call of the library's [createClient]
    returned.  [handle_id] is its identity, the number of clients created
    before it; the two strings are the ones it is bound to. *)
Record Handle : Type := { handle_id : nat; handle_url : string; handle_key : string }.

(** The request builders of the client's query interface. *)
Inductive QueryOp : Type :=
| OpSelect (columns : string)
| OpInsert (rows : JSValue)
| OpUpdate (values : JSValue)
| OpUpsert (rows : JSValue)
| OpDelete.

Definition read_only (op : QueryOp) : bool :=
  match op with
  | OpSelect _ => true
  | _ => false
  end.

(** [client.from(q_from).<q_op>.limit(q_limit)] *)
Record Query : Type := {
  q_client : Handle;
  q_from : string;
  q_op : QueryOp;
  q_limit : option nat
}.

(** What awaiting a query gives: the promise fulfils with a response, or the
    call raises / the promise rejects with a reason. *)
Inductive QueryOutcome : Type :=
| Resolves (response : JSValue)
| Rejects (reason : JSValue).

Inductive ConsoleEntry : Type :=
| ConsoleLog (args : list JSValue)
| ConsoleError (args : list JSValue).

(** Values bound on the global scope. [GProbe] is the closure
    [testSupabaseConnection], which captures the validity flag and the
    handle of the module that created it. *)
Inductive GlobalValue : Type :=
| GValue (v : JSValue)
| GClient (client : Handle)
| GProbe (configured : bool) (client : Handle).

(** The backend library is not part of the repository.  What its
    [createClient] does with a URL and a key ([library]: the value it raises,
    if it raises) and what a query through a client answers ([backend]) are
    parameters of the world. *)
Record World : Type := {
  import_meta : EnvHost;
  process : EnvHost;
  window : option (gmap string GlobalValue);
  library : string -> string -> option JSValue;
  backend : Query -> QueryOutcome;
  console : list ConsoleEntry;          (* written so far, oldest first *)
  queries : list Query;                 (* issued so far, oldest first *)
  clients : nat                         (* clients created so far *)
}.

(** ** State and exception monad *)

Definition M (A : Type) : Type := World -> Result A * World.

Definition ret {A : Type} (a : A) : M A := fun w => (Ok a, w).

Definition bind {A B : Type} (m : M A) (k : A -> M B) : M B :=
  fun w =>
    match m w with
    | (Ok a, w') => k a w'
    | (Throw e, w') => (Throw e, w')
    end.

Notation "'let!' x ':=' m 'in' k" := (bind m (fun x => k))
  (at level 10, x name, m at level 100, k at level 200).
Notation "'exec' m 'then' k" := (bind m (fun _ => k))
  (at level 10, m at level 100, k at level 200).

(** [try { body } catch (e) { handler }] *)
Definition try_catch {A : Type} (body : M A) (handler : JSValue -> M A) : M A :=
  fun w =>
    match body w with
    | (Ok a, w') => (Ok a, w')
    | (Throw e, w') => handler e w'
    end.

(** A computation that only completes, without touching the world. *)
Definition complete {A : Type} (r : Result A) : M A := fun w => (r, w).

Definition console_log (args : list JSValue) : M unit :=
  fun w =>
    (Ok tt, {| import_meta := import_meta w; process := process w; window := window w;
               library := library w; backend := backend w; console := console w ++ [ConsoleLog args];
               queries := queries w; clients := clients w |}).

Definition console_error (args : list JSValue) : M unit :=
  fun w =>
    (Ok tt, {| import_meta := import_meta w; process := process w; window := window w;
               library := library w; backend := backend w; console := console w ++ [ConsoleError args];
               queries := queries w; clients := clients w |}).

(** [await q]: the query is issued, and the backend's answer completes it. *)
Definition await_query (q : Query) : M JSValue :=
  fun w =>
    let w' := {| import_meta := import_meta w; process := process w; window := window w;
                 library := library w; backend := backend w; console := console w;
                 queries := queries w ++ [q]; clients := clients w |} in
    match backend w q with
    | Resolves response => (Ok response, w')
    | Rejects reason => (Throw reason, w')
    end.

(** [typeof window !== 'undefined'] *)
Definition window_defined : M bool := fun w => (Ok (bool_decide (is_Some (window w))), w).

(** [(window as any).name = value] *)
Definition set_global (name : string) (value : GlobalValue) : M unit :=
  fun w =>
    match window w with
    | Some globals =>
        (Ok tt, {| import_meta := import_meta w; process := process w;
                   window := Some (<[name := value]> globals);
                   library := library w; backend := backend w; console := console w; queries := queries w; clients := clients w |})
    | None => (Throw (ReferenceError "window is not defined"), w)
    end.

(** [createClient(url, key)] of the backend library: it raises what the
    library raises on the pair, and otherwise returns a new client bound to
    the pair. *)
Definition createClient (url key : string) : M Handle :=
  fun w =>
    match library w url key with
    | Some e => (Throw e, w)
    | None =>
        (Ok {| handle_id := clients w; handle_url := url; handle_key := key |},
         {| import_meta := import_meta w; process := process w; window := window w;
            library := library w; backend := backend w; console := console w;
            queries := queries w; clients := S (clients w) |})
    end.

(** ** Environment resolver (supabaseClient.ts, lines 8-29) *)

(** [typeof host !== 'undefined'] *)
Definition host_defined (h : EnvHost) : bool :=
  match h with
  | HostAbsent => false
  | _ => true
  end.

(** [host.env] *)
Definition host_env (h : EnvHost) : Result (option (gmap string string)) :=
  match h with
  | HostAbsent => Throw (ReferenceError "host is not defined")
  | HostWithoutEnv => Ok None
  | HostEnv env => Ok (Some env)
  | HostRaises e => Throw e
  end.

(** The body of one [try] block of [getEnv]:
    [if (typeof host !== 'undefined' && host.env && host.env[key])
       return String(host.env[key]);]
    [Some v] when the [return] is taken, [None] when control falls out of
    the [if].  Environment values are strings, so [host.env[key]] is truthy
    exactly when it is a non-empty string and [String] leaves it as it is. *)
Definition read_host (host : World -> EnvHost) (key : string) : M (option string) :=
  fun w =>
    if host_defined (host w) then
      match host_env (host w) with
      | Throw e => (Throw e, w)
      | Ok None => (Ok None, w)
      | Ok (Some env) =>
          match env !! key with
          | Some v => if truthy (JSStr v) then (Ok (Some v), w) else (Ok None, w)
          | None => (Ok None, w)
          end
      end
    else (Ok None, w).

Definition getEnv (key : string) : M string :=
  let! viaVite := try_catch (read_host import_meta key) (fun _ => ret None) in
  match viaVite with
  | Some v => ret v
  | None =>
      let! viaProcess := try_catch (read_host process key) (fun _ => ret None) in
      match viaProcess with
      | Some v => ret v
      | None => ret ""
      end
  end.

(** [a || b] on two resolver calls: [b] is only evaluated when [a] is falsy. *)
Definition js_or (a b : M string) : M string :=
  let! x := a in
  if truthy (JSStr x) then ret x else b.

(** ** Module initialisation (supabaseClient.ts, lines 32-76 and 100-103) *)

(** Line 76 calls [createClient] outside any [try]: what it raises ends the
    evaluation of the module, before lines 100-103. *)

(** The constants of the module scope. *)
Record ModuleScope : Type := {
  m_supabaseUrl : string;
  m_supabaseAnonKey : string;
  m_isSupabaseConfigured : bool;
  m_clientUrl : string;
  m_clientKey : string;
  m_supabase : Handle
}.

(** [getEnv(key) ? 'Found' : 'Missing'], with the source's check marks. *)
Definition found_or_missing (key : string) : M (string * JSValue) :=
  let! v := getEnv key in
  ret (key, JSStr (if truthy (JSStr v) then "✓ Found" else "✗ Missing")).

(** Lines 46-69: the diagnostic output. *)
Definition logStatus (configured : bool) (supabaseUrl : string) : M unit :=
  if negb configured then
    exec console_log
      [JSStr "%c [PROTOCOL ALERT] Supabase credentials missing or invalid. Operating in Local Buffer Mode. ";
       JSStr "color: #fbbf24; font-weight: bold; background: #1e1b4b; padding: 6px; border-radius: 8px; border: 1px solid #fbbf24;"] then
    let! f1 := found_or_missing "VITE_SUPABASE_URL" in
    let! f2 := found_or_missing "VITE_SUPABASE_ANON_KEY" in
    let! f3 := found_or_missing "SUPABASE_URL" in
    let! f4 := found_or_missing "SUPABASE_ANON_KEY" in
    exec console_log [JSStr "Checked for:"; JSObj [f1; f2; f3; f4]] then
    exec console_log [JSStr "%c How to fix:"; JSStr "color: #10b981; font-weight: bold;"] then
    exec console_log [JSStr "1. Create a .env file in your project root"] then
    exec console_log [JSStr "2. Add these lines:"] then
    exec console_log [JSStr "   VITE_SUPABASE_URL=https://xxxxx.supabase.co"] then
    exec console_log [JSStr "   VITE_SUPABASE_ANON_KEY=eyJhbGc..."] then
    console_log [JSStr "3. Restart your dev server (npm run dev)"]
  else
    exec console_log
      [JSStr "%c [PROTOCOL STATUS] Supabase connection active ✓ ";
       JSStr "color: #10b981; font-weight: bold; background: #1e1b4b; padding: 6px; border-radius: 8px; border: 1px solid #10b981;"] then
    console_log [JSStr "Connected to:"; JSStr supabaseUrl].

(** Lines 100-103: the bindings on the global scope. *)
Definition exposeOnWindow (configured : bool) (supabase : Handle) : M unit :=
  let! hasWindow := window_defined in
  if hasWindow then
    exec set_global "testSupabaseConnection" (GProbe configured supabase) then
    set_global "supabase" (GClient supabase)
  else ret tt.

Definition moduleInit : M ModuleScope :=
  let! supabaseUrl := js_or (getEnv "VITE_SUPABASE_URL") (getEnv "SUPABASE_URL") in
  let! supabaseAnonKey := js_or (getEnv "VITE_SUPABASE_ANON_KEY") (getEnv "SUPABASE_ANON_KEY") in
  let configured := isSupabaseConfigured supabaseUrl supabaseAnonKey in
  exec logStatus configured supabaseUrl then
  let clientUrl := if configured then supabaseUrl else "https://placeholder-project.supabase.co" in
  let clientKey := if configured then supabaseAnonKey else "placeholder-key" in
  let! supabase := createClient clientUrl clientKey in
  exec exposeOnWindow configured supabase then
  ret {| m_supabaseUrl := supabaseUrl; m_supabaseAnonKey := supabaseAnonKey;
         m_isSupabaseConfigured := configured;
         m_clientUrl := clientUrl; m_clientKey := clientKey; m_supabase := supabase |}.

(** ** Connectivity probe (supabaseClient.ts, lines 79-97) *)

(** [const { data, error } = response] *)
Definition destructure_data_error (response : JSValue) : Result (JSValue * JSValue) :=
  if nullish response then
    Throw (TypeError
             ("Cannot destructure property 'data' of '(intermediate value)' as it is "
              +:+ match response with JSNull => "null" | _ => "undefined" end +:+ "."))
  else
    match get_prop response "data", get_prop response "error" with
    | Ok data, Ok error => Ok (data, error)
    | Throw e, _ | _, Throw e => Throw e
    end.

(** [supabase.from('profiles').select('*').limit(1)] *)
Definition probe_query (supabase : Handle) : Query :=
  {| q_client := supabase; q_from := "profiles"; q_op := OpSelect "*"; q_limit := Some 1 |}.

(** The probe closes over the validity flag and the handle of its module.
    The completion of the computation is the settlement of the promise the
    [async] function returns. *)
Definition testSupabaseConnection (isConfigured : bool) (supabase : Handle) : M JSValue :=
  if negb isConfigured then
    exec console_error [JSStr "Cannot test connection: Supabase not configured"] then
    ret (JSObj [("success", JSBool false); ("error", JSStr "Not configured")])
  else
    try_catch
      (let! response := await_query (probe_query supabase) in
       let! fields := complete (destructure_data_error response) in
       let data := fst fields in
       let error := snd fields in
       if truthy error then
         exec console_error [JSStr "Supabase connection test failed:"; error] then
         let! message := complete (get_prop error "message") in
         ret (JSObj [("success", JSBool false); ("error", message)])
       else
         exec console_log [JSStr "✓ Supabase connection test passed"] then
         ret (JSObj [("success", JSBool true); ("data", data)]))
      (fun e =>
         exec console_error [JSStr "Supabase connection test error:"; e] then
         let! message := complete (get_prop e "message") in
         ret (JSObj [("success", JSBool false); ("error", message)])).

(** Calling the global binding [name] of a world, as from the console. *)
Definition call_global (v : GlobalValue) : option (M JSValue) :=
  match v with
  | GProbe configured client => Some (testSupabaseConnection configured client)
  | _ => None
  end.

(** ** Vocabulary of the statements *)

(** The source [h] defines the variable [key] with the non-empty value [v]. *)
Definition defines (h : EnvHost) (key v : string) : Prop :=
  exists env, h = HostEnv env /\ env !! key = Some v /\ v <> "".

(** The non-empty value a source holds for [key], if any. *)
Definition host_value (h : EnvHost) (key : string) : option string :=
  match h with
  | HostEnv env =>
      match env !! key with
      | Some v => if String.eqb v "" then None else Some v
      | None => None
      end
  | _ => None
  end.

(** What [getEnv key] resolves to in the world [w]. *)
Definition resolve (w : World) (key : string) : string :=
  match host_value (import_meta w) key with
  | Some v => v
  | None => default "" (host_value (process w) key)
  end.

Definition first_nonempty (a b : string) : string :=
  if String.eqb a "" then b else a.

(** The global scope after the two assignments of lines 101-102. *)
Definition expose (configured : bool) (supabase : Handle)
    (globals : gmap string GlobalValue) : gmap string GlobalValue :=
  <["supabase" := GClient supabase]>
    (<["testSupabaseConnection" := GProbe configured supabase]> globals).

(** The value [e] was raised inside the probe's [try] block: by the query,
    or by destructuring its response. *)
Definition raised_in_probe (w : World) (supabase : Handle) (e : JSValue) : Prop :=
  backend w (probe_query supabase) = Rejects e \/
  exists response,
    backend w (probe_query supabase) = Resolves response /\
    destructure_data_error response = Throw e.

(** The query answered with the truthy [error] next to [data]. *)
Definition answered_with (w : World) (supabase : Handle) (data error : JSValue) : Prop :=
  exists response,
    backend w (probe_query supabase) = Resolves response /\
    destructure_data_error response = Ok (data, error).

(** The object whose [message] a failure result of the probe reports: the
    truthy [error] of the response, or the value raised in the [try] block. *)
Definition reported_error (w : World) (supabase : Handle) (e : JSValue) : Prop :=
  (exists data, answered_with w supabase data e /\ truthy e = true) \/
  raised_in_probe w supabase e.

(** The world [w] after [entries] were written to the console. *)
Definition log_to (w : World) (entries : list ConsoleEntry) : World :=
  {| import_meta := import_meta w; process := process w; window := window w;
     library := library w; backend := backend w; console := console w ++ entries;
     queries := queries w; clients := clients w |}.

(** Some environment source of [w] defines [key] with a non-empty value. *)
Definition found_in (w : World) (key : string) : Prop :=
  exists v, defines (import_meta w) key v \/ defines (process w) key v.

(** What the "Checked for:" object reports for [key]. *)
Definition status_of (w : World) (key : string) : JSValue :=
  JSStr (if truthy (JSStr (resolve w key)) then "✓ Found" else "✗ Missing").


(** ** Sample worlds *)

Definition sample_key : string := "eyJhbGciOiJIUzI1NiIsInR5cCI6IkpXVCJ9.abcd".

Definition JSError (message : string) : JSValue :=
  JSObj [("name", JSStr "Error"); ("message", JSStr message)].

(** The part of a URL after the "//" of its scheme. *)
Fixpoint after_scheme (url : string) : string :=
  match url with
  | EmptyString => ""
  | String c rest =>
      if Ascii.eqb c "/"%char && startsWith "/" rest
      then match rest with String _ r => r | EmptyString => "" end
      else after_scheme rest
  end.

(** The host of a URL: what comes before the first "/", "?" or "#". *)
Fixpoint take_host (s : string) : string :=
  match s with
  | EmptyString => ""
  | String c rest =>
      if Ascii.eqb c "/"%char || Ascii.eqb c "?"%char || Ascii.eqb c "#"%char then ""
      else String c (take_host rest)
  end.

(** A backend library as the module meets it: [createClient] requires both
    arguments and parses the URL, and a URL with a space in its host does not
    parse.  The wording of the errors differs between versions of the
    library. *)
Definition parsing_library (url key : string) : option JSValue :=
  if String.eqb url "" then Some (JSError "supabaseUrl is required.")
  else if String.eqb key "" then Some (JSError "supabaseKey is required.")
  else if includes " " (take_host (after_scheme url)) then Some (TypeError "Invalid URL")
  else None.

(** A Vite build in a browser: prefixed variables injected, no [process]. *)
Definition vite_world (answer : Query -> QueryOutcome) : World :=
  {| import_meta :=
       HostEnv (<["VITE_SUPABASE_URL" := "https://abc.supabase.co"]>
                (<["VITE_SUPABASE_ANON_KEY" := sample_key]> ∅));
     process := HostAbsent;
     window := Some ∅;
     library := parsing_library;
     backend := answer;
     console := [];
     queries := [];
     clients := 0 |}.

(** A Node process: no usable [import.meta.env], unprefixed variables, an
    ignored prefixed one that is empty, no [window]. *)
Definition node_world (answer : Query -> QueryOutcome) : World :=
  {| import_meta := HostRaises (TypeError "import.meta.env is not available");
     process :=
       HostEnv (<["SUPABASE_URL" := "https://abc.supabase.co"]>
                (<["SUPABASE_ANON_KEY" := sample_key]>
                 (<["VITE_SUPABASE_URL" := ""]> ∅)));
     window := None;
     library := parsing_library;
     backend := answer;
     console := [];
     queries := [];
     clients := 0 |}.

(** Both names of both keys set, to different values. *)
Definition both_world (answer : Query -> QueryOutcome) : World :=
  {| import_meta :=
       HostEnv (<["VITE_SUPABASE_URL" := "https://abc.supabase.co"]>
                (<["SUPABASE_URL" := "https://other.supabase.co"]> ∅));
     process :=
       HostEnv (<["VITE_SUPABASE_ANON_KEY" := sample_key]>
                (<["SUPABASE_ANON_KEY" := "another-anon-key-of-some-length"]> ∅));
     window := Some ∅;
     library := parsing_library;
     backend := answer;
     console := [];
     queries := [];
     clients := 0 |}.

(** Nothing configured. *)
Definition bare_world (answer : Query -> QueryOutcome) : World :=
  {| import_meta := HostWithoutEnv;
     process := HostAbsent;
     window := None;
     library := parsing_library;
     backend := answer;
     console := [];
     queries := [];
     clients := 0 |}.

Definition row : JSValue := JSObj [("id", JSNum 1); ("username", JSStr "anon")].

Definition answers_rows (q : Query) : QueryOutcome :=
  Resolves (JSObj [("data", JSArr [row]); ("error", JSNull)]).

Definition answers_error (q : Query) : QueryOutcome :=
  Resolves (JSObj [("data", JSNull);
                   ("error", JSObj [("message", JSStr "relation does not exist")])]).

Definition raises_error (q : Query) : QueryOutcome :=
  Rejects (JSObj [("name", JSStr "Error"); ("message", JSStr "Failed to fetch")]).

(** A Vite build whose URL passes the validator and does not parse: it
    starts with "https://", has no "placeholder", and has a space in its
    host. *)
Definition malformed_world (answer : Query -> QueryOutcome) : World :=
  {| import_meta :=
       HostEnv (<["VITE_SUPABASE_URL" := "https://abc def"]>
                (<["VITE_SUPABASE_ANON_KEY" := sample_key]> ∅));
     process := HostAbsent;
     window := Some ∅;
     library := parsing_library;
     backend := answer;
     console := [];
     queries := [];
     clients := 0 |}.

(** The first client of a world, created from the sample credentials. *)
Definition sample_client : Handle :=
  {| handle_id := 0; handle_url := "https://abc.supabase.co"; handle_key := sample_key |}.

(** The constants of the module initialised in [vite_world]. *)
Definition vite_scope : ModuleScope :=
  {| m_supabaseUrl := "https://abc.supabase.co"; m_supabaseAnonKey := sample_key;
     m_isSupabaseConfigured := true;
     m_clientUrl := "https://abc.supabase.co"; m_clientKey := sample_key;
     m_supabase := sample_client |}.

(** The constants of the module initialised in [bare_world]. *)
Definition bare_scope : ModuleScope :=
  {| m_supabaseUrl := ""; m_supabaseAnonKey := "";
     m_isSupabaseConfigured := false;
     m_clientUrl := "https://placeholder-project.supabase.co";
     m_clientKey := "placeholder-key";
     m_supabase :=
       {| handle_id := 0;
          handle_url := "https://placeholder-project.supabase.co";
          handle_key := "placeholder-key" |} |}.

(** The query resolves with [undefined] instead of a response object. *)
Definition answers_undefined (q : Query) : QueryOutcome := Resolves JSUndefined.

(** * Properties *)

(** ** Strings *)

Lemma append_cons (c : Ascii.ascii) (a b : string) :
  String c a +:+ b = String c (a +:+ b).
Proof. reflexivity. Qed.

Lemma startsWith_spec (p s : string) :
  startsWith p s = true <-> exists r, s = p +:+ r.
Proof.
  revert s. induction p as [|c p IH]; intros s.
  - split; [intros _; by exists s | done].
  - destruct s as [|d s]; simpl.
    + split; [done | intros [r Hr]; discriminate].
    + rewrite andb_true_iff, Ascii.eqb_eq, IH. split.
      * intros [-> [r ->]]. by exists r.
      * intros [r Hr]. rewrite append_cons in Hr.
        injection Hr as -> ->. split; [done | by exists r].
Qed.

Lemma includes_spec (needle s : string) :
  includes needle s = true <-> exists a b, s = a +:+ needle +:+ b.
Proof.
  induction s as [|c s IH]; simpl; rewrite orb_true_iff, startsWith_spec.
  - split.
    + intros [[r Hr]|]; [|done]. by exists "", r.
    + intros [a [b Hab]]. left. destruct a; [by exists b | discriminate].
  - rewrite IH. split.
    + intros [[r Hr]|[a [b Hab]]].
      * by exists "", r.
      * exists (String c a), b. by rewrite append_cons, Hab.
    + intros [a [b Hab]]. destruct a as [|d a].
      * left. by exists b.
      * right. exists a, b. rewrite append_cons in Hab. by injection Hab.
Qed.

Lemma truthy_JSStr (s : string) : truthy (JSStr s) = true <-> s <> "".
Proof.
  simpl. rewrite negb_true_iff. split.
  - intros H ->. by rewrite String.eqb_refl in H.
  - intros H. by apply String.eqb_neq.
Qed.

(** ** The validator *)

Lemma js_and_truthy (a b : JSValue) : truthy (js_and a b) = truthy a && truthy b.
Proof. unfold js_and. by destruct (truthy a) eqn:Ha. Qed.

(** The validator is true exactly when the URL is non-empty, the key is
    non-empty, the URL has no occurrence of "placeholder", the URL's length
    is positive, the URL starts with "https://" and the key is longer than
    20. *)
Lemma isSupabaseConfigured_iff (supabaseUrl supabaseAnonKey : string) :
  isSupabaseConfigured supabaseUrl supabaseAnonKey = true <->
    supabaseUrl <> "" /\
    supabaseAnonKey <> "" /\
    ~ (exists a b, supabaseUrl = a +:+ "placeholder" +:+ b) /\
    (0 < String.length supabaseUrl)%nat /\
    (exists r, supabaseUrl = "https://" +:+ r) /\
    (20 < String.length supabaseAnonKey)%nat.
Proof.
  rewrite <- includes_spec, <- startsWith_spec, <- !truthy_JSStr, <- !Nat.ltb_lt.
  unfold isSupabaseConfigured. rewrite !js_and_truthy. cbn [truthy].
  rewrite !andb_true_iff, !negb_true_iff, not_true_iff_false. tauto.
Qed.

(** ** The monad *)

Lemma bind_ok {A B : Type} (m : M A) (k : A -> M B) (w w' : World) (a : A) :
  m w = (Ok a, w') -> bind m k w = k a w'.
Proof. unfold bind. by intros ->. Qed.

(** ** The environment resolver *)

Lemma host_value_defines (h : EnvHost) (key v : string) :
  host_value h key = Some v <-> defines h key v.
Proof.
  unfold host_value, defines. split.
  - destruct h as [| |env|e]; try done.
    destruct (env !! key) as [x|] eqn:Hx; [|done].
    destruct (String.eqb x "") eqn:He; [done|].
    intros [= ->]. exists env. by apply String.eqb_neq in He.
  - intros (env & -> & -> & Hv). apply String.eqb_neq in Hv. by rewrite Hv.
Qed.

(** Each [try] block of [getEnv] yields the source's non-empty value or
    nothing, whatever the source does. *)
Lemma read_host_caught (host : World -> EnvHost) (key : string) (w : World) :
  try_catch (read_host host key) (fun _ => ret None) w = (Ok (host_value (host w) key), w).
Proof.
  unfold try_catch, read_host, host_value, ret.
  destruct (host w) as [| |env|e]; simpl; try done.
  destruct (env !! key) as [v|]; [|done].
  by destruct (String.eqb v "").
Qed.

Lemma getEnv_eval (key : string) (w : World) :
  getEnv key w = (Ok (resolve w key), w).
Proof.
  unfold getEnv, resolve.
  rewrite (bind_ok _ _ _ _ _ (read_host_caught import_meta key w)).
  destruct (host_value (import_meta w) key) as [v|]; [done|].
  rewrite (bind_ok _ _ _ _ _ (read_host_caught process key w)).
  by destruct (host_value (process w) key).
Qed.

(** C5. [getEnv] never raises and leaves the world as it is; it returns the
    value of [import.meta.env] when that source defines the name non-empty,
    otherwise the value of [process.env] when that one does, otherwise the
    empty string.  A source that is absent, has no [env] or raises on access
    defines nothing. *)
Theorem getEnv_resolution (key : string) (w : World) :
  exists v, getEnv key w = (Ok v, w) /\
    (forall x, defines (import_meta w) key x -> v = x) /\
    ((forall x, ~ defines (import_meta w) key x) ->
       forall y, defines (process w) key y -> v = y) /\
    ((forall x, ~ defines (import_meta w) key x) ->
       (forall y, ~ defines (process w) key y) -> v = "") /\
    (forall h, h = HostAbsent \/ h = HostWithoutEnv \/ (exists e, h = HostRaises e) ->
       forall x, ~ defines h key x).
Proof.
  eexists. split; [apply getEnv_eval|]. unfold resolve. repeat split.
  - intros x Hx. apply host_value_defines in Hx. by rewrite Hx.
  - intros Hno y Hy. apply host_value_defines in Hy. rewrite Hy.
    destruct (host_value (import_meta w) key) as [x|] eqn:Hx; [|done].
    apply host_value_defines in Hx. by destruct (Hno x).
  - intros Hno1 Hno2.
    destruct (host_value (import_meta w) key) as [x|] eqn:Hx.
    { apply host_value_defines in Hx. by destruct (Hno1 x). }
    destruct (host_value (process w) key) as [y|] eqn:Hy; [|done].
    apply host_value_defines in Hy. by destruct (Hno2 y).
  - intros h Hh x (env & -> & _). destruct Hh as [?|[?|[e ?]]]; discriminate.
Qed.

(** ** Module initialisation *)

Lemma js_or_getEnv_eval (k1 k2 : string) (w : World) :
  js_or (getEnv k1) (getEnv k2) w = (Ok (first_nonempty (resolve w k1) (resolve w k2)), w).
Proof.
  unfold js_or, first_nonempty.
  rewrite (bind_ok _ _ _ _ _ (getEnv_eval k1 w)). simpl.
  destruct (String.eqb (resolve w k1) ""); simpl; [apply getEnv_eval | done].
Qed.

Lemma first_nonempty_l (a b : string) : a <> "" -> first_nonempty a b = a.
Proof. intros H. unfold first_nonempty. apply String.eqb_neq in H. by rewrite H. Qed.

Lemma first_nonempty_r (b : string) : first_nonempty "" b = b.
Proof. reflexivity. Qed.

Lemma console_log_eval (args : list JSValue) (w : World) :
  console_log args w = (Ok tt, log_to w [ConsoleLog args]).
Proof. reflexivity. Qed.

Lemma log_to_app (w : World) (a b : list ConsoleEntry) :
  log_to (log_to w a) b = log_to w (a ++ b)%list.
Proof. unfold log_to. cbn. by rewrite <- app_assoc. Qed.

Lemma found_or_missing_eval (key : string) (w : World) :
  found_or_missing key w = (Ok (key, status_of w key), w).
Proof.
  unfold found_or_missing. by rewrite (bind_ok _ _ _ _ _ (getEnv_eval key w)).
Qed.

Lemma resolve_nonempty_found (w : World) (key : string) :
  resolve w key <> "" <-> found_in w key.
Proof.
  unfold resolve, found_in. split.
  - destruct (host_value (import_meta w) key) as [x|] eqn:Hx.
    + intros _. exists x. left. by apply host_value_defines.
    + destruct (host_value (process w) key) as [y|] eqn:Hy; [|done].
      intros _. exists y. right. by apply host_value_defines.
  - intros [v [Hv|Hv]].
    + pose proof Hv as (_ & _ & _ & Hne).
      apply host_value_defines in Hv. by rewrite Hv.
    + destruct (host_value (import_meta w) key) as [x|] eqn:Hx.
      * apply host_value_defines in Hx. by destruct Hx as (_ & _ & _ & Hne).
      * pose proof Hv as (_ & _ & _ & Hne).
        apply host_value_defines in Hv. by rewrite Hv.
Qed.

(** With a true flag the emitter writes two lines: a banner that is the same
    in every world, and the URL. *)
Lemma logStatus_configured :
  exists banner, forall (supabaseUrl : string) (w : World),
    logStatus true supabaseUrl w =
      (Ok tt, log_to w [ConsoleLog banner;
                        ConsoleLog [JSStr "Connected to:"; JSStr supabaseUrl]]).
Proof.
  eexists. intros supabaseUrl w. unfold logStatus. cbn [negb].
  rewrite (bind_ok _ _ _ _ _ (console_log_eval _ _)).
  by rewrite console_log_eval, log_to_app.
Qed.

(** With a false flag the emitter writes eight lines with [console.log], all
    but the second the same in every world; the second is the report on the
    four names. *)
Lemma logStatus_unconfigured :
  exists alert remediation,
    length remediation = 6 /\
    forall (supabaseUrl : string) (w : World),
      logStatus false supabaseUrl w =
        (Ok tt,
         log_to w
           (ConsoleLog alert ::
            ConsoleLog
              [JSStr "Checked for:";
               JSObj [("VITE_SUPABASE_URL", status_of w "VITE_SUPABASE_URL");
                      ("VITE_SUPABASE_ANON_KEY", status_of w "VITE_SUPABASE_ANON_KEY");
                      ("SUPABASE_URL", status_of w "SUPABASE_URL");
                      ("SUPABASE_ANON_KEY", status_of w "SUPABASE_ANON_KEY")]] ::
            List.map ConsoleLog remediation)).
Proof.
  eexists _, [_; _; _; _; _; _]. split; [reflexivity|].
  intros supabaseUrl w. unfold logStatus. cbn [negb List.map].
  rewrite (bind_ok _ _ _ _ _ (console_log_eval _ _)).
  do 4 rewrite (bind_ok _ _ _ _ _ (found_or_missing_eval _ _)).
  do 6 (rewrite (bind_ok _ _ _ _ _ (console_log_eval _ _)), log_to_app).
  rewrite console_log_eval, log_to_app. reflexivity.
Qed.

Lemma first_nonempty_cases (a b : string) :
  first_nonempty a b <> "" ->
  (a <> "" /\ first_nonempty a b = a) \/ (b <> "" /\ first_nonempty a b = b).
Proof.
  unfold first_nonempty. destruct (String.eqb a "") eqn:Ha.
  - intros Hb. by right.
  - intros _. left. by apply String.eqb_neq in Ha.
Qed.

Lemma resolve_defines (w : World) (key : string) :
  resolve w key <> "" ->
  defines (import_meta w) key (resolve w key) \/ defines (process w) key (resolve w key).
Proof.
  unfold resolve.
  destruct (host_value (import_meta w) key) as [x|] eqn:Hx.
  - intros _. left. by apply host_value_defines.
  - destruct (host_value (process w) key) as [y|] eqn:Hy; [|done].
    intros _. right. by apply host_value_defines.
Qed.

Lemma exposeOnWindow_eval (configured : bool) (supabase : Handle) (w : World) :
  exposeOnWindow configured supabase w =
    (Ok tt, {| import_meta := import_meta w; process := process w;
               window := expose configured supabase <$> window w;
               library := library w; backend := backend w; console := console w;
               queries := queries w; clients := clients w |}).
Proof.
  unfold exposeOnWindow, window_defined, bind, set_global.
  by destruct w as [im pr [g|] li be co qs cl].
Qed.

(** What an evaluation of the module does: it writes the emitter's lines,
    then raises what [createClient] raises on the pair it is given, or
    completes with the new client bound on the global scope. *)
Lemma moduleInit_run (w : World) :
  exists entries,
    let url := first_nonempty (resolve w "VITE_SUPABASE_URL") (resolve w "SUPABASE_URL") in
    let key :=
      first_nonempty (resolve w "VITE_SUPABASE_ANON_KEY") (resolve w "SUPABASE_ANON_KEY") in
    let configured := isSupabaseConfigured url key in
    let clientUrl := if configured then url else "https://placeholder-project.supabase.co" in
    let clientKey := if configured then key else "placeholder-key" in
    let supabase :=
      {| handle_id := clients w; handle_url := clientUrl; handle_key := clientKey |} in
    logStatus configured url w = (Ok tt, log_to w entries) /\
    moduleInit w =
      match library w clientUrl clientKey with
      | Some e => (Throw e, log_to w entries)
      | None =>
          (Ok {| m_supabaseUrl := url; m_supabaseAnonKey := key;
                 m_isSupabaseConfigured := configured;
                 m_clientUrl := clientUrl; m_clientKey := clientKey;
                 m_supabase := supabase |},
           {| import_meta := import_meta w; process := process w;
              window := expose configured supabase <$> window w;
              library := library w; backend := backend w;
              console := console w ++ entries;
              queries := queries w; clients := S (clients w) |})
      end.
Proof.
  set (u := first_nonempty (resolve w "VITE_SUPABASE_URL") (resolve w "SUPABASE_URL")).
  set (k := first_nonempty (resolve w "VITE_SUPABASE_ANON_KEY")
              (resolve w "SUPABASE_ANON_KEY")).
  assert (exists entries,
            logStatus (isSupabaseConfigured u k) u w = (Ok tt, log_to w entries))
    as (entries & Hlog).
  { destruct (isSupabaseConfigured u k).
    - destruct logStatus_configured as (b & Hb). rewrite Hb. by eexists.
    - destruct logStatus_unconfigured as (a & r & _ & Hr). rewrite Hr. by eexists. }
  exists entries. cbn zeta. split; [exact Hlog|].
  unfold moduleInit.
  rewrite (bind_ok _ _ _ _ _ (js_or_getEnv_eval _ _ w)).
  rewrite (bind_ok _ _ _ _ _ (js_or_getEnv_eval _ _ w)).
  fold u k. rewrite (bind_ok _ _ _ _ _ Hlog).
  unfold bind at 1. unfold createClient. cbn [library log_to clients].
  destruct (library w _ _); [reflexivity|].
  rewrite (bind_ok _ _ _ _ _ (exposeOnWindow_eval _ _ _)).
  reflexivity.
Qed.

(** Replaces the result of a completed initialisation by the constants and
    the world [moduleInit_run] computes. *)
Ltac module_run w H :=
  let entries := fresh "entries" in
  let Hrun := fresh "Hrun" in
  let Hlog := fresh "Hlog" in
  let Hlib := fresh "Hlib" in
  destruct (moduleInit_run w) as (entries & Hrun);
  cbn zeta in Hrun; destruct Hrun as (Hlog & Hrun);
  rewrite Hrun in H; clear Hrun;
  match type of H with
  | context [library w ?u ?k] => destruct (library w u k) eqn:Hlib
  end;
  [discriminate H|]; injection H as <- <-.

(** C1. The exported validity flag is true if and only if, for the resolved
    pair: the URL is non-empty, the key is non-empty, the URL does not
    contain "placeholder", the URL's length is greater than zero, the URL
    starts with "https://" and the key's length is greater than 20. *)
Theorem validity_flag_iff (w w' : World) (m : ModuleScope) :
  moduleInit w = (Ok m, w') ->
  (m_isSupabaseConfigured m = true <->
     m_supabaseUrl m <> "" /\
     m_supabaseAnonKey m <> "" /\
     ~ (exists a b, m_supabaseUrl m = a +:+ "placeholder" +:+ b) /\
     (0 < String.length (m_supabaseUrl m))%nat /\
     (exists r, m_supabaseUrl m = "https://" +:+ r) /\
     (20 < String.length (m_supabaseAnonKey m))%nat).
Proof.
  intros H. module_run w H.
  cbn [m_isSupabaseConfigured m_supabaseUrl m_supabaseAnonKey].
  apply isSupabaseConfigured_iff.
Qed.

Lemma validity_flag_iff_witness :
  m_isSupabaseConfigured vite_scope = true <->
    m_supabaseUrl vite_scope <> "" /\
    m_supabaseAnonKey vite_scope <> "" /\
    ~ (exists a b, m_supabaseUrl vite_scope = a +:+ "placeholder" +:+ b) /\
    (0 < String.length (m_supabaseUrl vite_scope))%nat /\
    (exists r, m_supabaseUrl vite_scope = "https://" +:+ r) /\
    (20 < String.length (m_supabaseAnonKey vite_scope))%nat.
Proof.
  apply (validity_flag_iff (vite_world answers_rows)
           (snd (moduleInit (vite_world answers_rows))) vite_scope).
  vm_compute. reflexivity.
Defined.

(** The evaluation of the module completes exactly when [createClient]
    returns on the pair it is given at line 76. *)
Lemma moduleInit_completes_iff (w : World) :
  let url := first_nonempty (resolve w "VITE_SUPABASE_URL") (resolve w "SUPABASE_URL") in
  let key :=
    first_nonempty (resolve w "VITE_SUPABASE_ANON_KEY") (resolve w "SUPABASE_ANON_KEY") in
  let configured := isSupabaseConfigured url key in
  (exists m w', moduleInit w = (Ok m, w')) <->
  library w (if configured then url else "https://placeholder-project.supabase.co")
            (if configured then key else "placeholder-key") = None.
Proof.
  cbn zeta. destruct (moduleInit_run w) as (entries & Hrun). cbn zeta in Hrun.
  destruct Hrun as (_ & ->).
  destruct (library w _ _); split; try done.
  - by intros (m & w' & H).
  - intros _. by eexists _, _.
Qed.

(** When the evaluation completes, the client was created from the resolved
    pair if the flag is true and from the two placeholder literals if it is
    false. *)
Lemma client_factory_arguments (w w' : World) (m : ModuleScope) :
  moduleInit w = (Ok m, w') ->
  (m_isSupabaseConfigured m = true ->
     handle_url (m_supabase m) = m_supabaseUrl m /\
     handle_key (m_supabase m) = m_supabaseAnonKey m) /\
  (m_isSupabaseConfigured m = false ->
     handle_url (m_supabase m) = "https://placeholder-project.supabase.co" /\
     handle_key (m_supabase m) = "placeholder-key").
Proof.
  intros H. module_run w H. cbn. by split; intros ->.
Qed.

(** C3. A URL that passes the validator and that the library cannot parse:
    the flag is true, [createClient] raises at line 76, the evaluation of the
    module raises with it, and no client exists. *)
Theorem client_factory_raises :
  isSupabaseConfigured "https://abc def" sample_key = true /\
  exists e w',
    moduleInit (malformed_world answers_rows) = (Throw e, w') /\
    clients w' = 0.
Proof.
  split; [reflexivity|]. eexists _, _. split; vm_compute; reflexivity.
Qed.

(** C6. For each of the two logical keys the prefixed name is resolved first
    and the unprefixed name second, and the first non-empty value is used: a
    non-empty prefixed value wins whatever the unprefixed one is, and the
    unprefixed value is used only when the prefixed one is empty. *)
Theorem prefixed_variable_wins (w w' : World) (m : ModuleScope) :
  moduleInit w = (Ok m, w') ->
  (forall a b,
     getEnv "VITE_SUPABASE_URL" w = (Ok a, w) ->
     getEnv "SUPABASE_URL" w = (Ok b, w) ->
     (a <> "" -> b <> "" -> a <> b -> m_supabaseUrl m = a) /\
     (a <> "" -> m_supabaseUrl m = a) /\
     (a = "" -> m_supabaseUrl m = b)) /\
  (forall a b,
     getEnv "VITE_SUPABASE_ANON_KEY" w = (Ok a, w) ->
     getEnv "SUPABASE_ANON_KEY" w = (Ok b, w) ->
     (a <> "" -> b <> "" -> a <> b -> m_supabaseAnonKey m = a) /\
     (a <> "" -> m_supabaseAnonKey m = a) /\
     (a = "" -> m_supabaseAnonKey m = b)).
Proof.
  intros H. module_run w H. cbn [m_supabaseUrl m_supabaseAnonKey].
  split; intros a b Ha Hb; rewrite getEnv_eval in Ha, Hb;
    injection Ha as Ha; injection Hb as Hb; rewrite Ha, Hb;
    (split; [|split]);
    [ intros Hne _ _; by apply first_nonempty_l
    | intros Hne; by apply first_nonempty_l
    | intros ->; apply first_nonempty_r
    | intros Hne _ _; by apply first_nonempty_l
    | intros Hne; by apply first_nonempty_l
    | intros ->; apply first_nonempty_r ].
Qed.

(** C7. The validity flag is a function of the resolved pair alone: two
    initialisations, in any two worlds, that resolve the same URL and the
    same key export the same flag. *)
Theorem validity_is_pure (w1 w2 w1' w2' : World) (m1 m2 : ModuleScope) :
  moduleInit w1 = (Ok m1, w1') ->
  moduleInit w2 = (Ok m2, w2') ->
  m_supabaseUrl m1 = m_supabaseUrl m2 ->
  m_supabaseAnonKey m1 = m_supabaseAnonKey m2 ->
  m_isSupabaseConfigured m1 = m_isSupabaseConfigured m2.
Proof.
  intros H1 H2. module_run w1 H1. module_run w2 H2.
  cbn [m_supabaseUrl m_supabaseAnonKey m_isSupabaseConfigured].
  by intros -> ->.
Qed.

Lemma validity_is_pure_witness :
  exists m1 m2 w1' w2',
    moduleInit (vite_world answers_rows) = (Ok m1, w1') /\
    moduleInit (node_world raises_error) = (Ok m2, w2') /\
    m_isSupabaseConfigured m1 = m_isSupabaseConfigured m2.
Proof.
  eexists _, _, _, _.
  split; [vm_compute; reflexivity|].
  split; [vm_compute; reflexivity|].
  eapply (validity_is_pure (vite_world answers_rows) (node_world raises_error));
    vm_compute; reflexivity.
Defined.

Lemma prefixed_variable_wins_witness :
  exists m w', moduleInit (both_world answers_rows) = (Ok m, w') /\
    m_supabaseUrl m = "https://abc.supabase.co" /\
    m_supabaseAnonKey m = sample_key.
Proof.
  eexists _, _. split; [vm_compute; reflexivity|].
  destruct (prefixed_variable_wins (both_world answers_rows)
              (snd (moduleInit (both_world answers_rows))) vite_scope)
    as (Hu & Hk); [vm_compute; reflexivity|].
  split.
  - apply (Hu "https://abc.supabase.co" "https://other.supabase.co");
      [vm_compute; reflexivity | vm_compute; reflexivity | discriminate..].
  - apply (Hk sample_key "another-anon-key-of-some-length");
      [vm_compute; reflexivity | vm_compute; reflexivity | discriminate..].
Defined.

(** When the evaluation completes in a world with a global scope, the handle
    is bound on it under the name "supabase" and the probe under the name
    "testSupabaseConnection", every other binding being kept; when there is
    no global scope, none is created. *)
Lemma exposure_when_created (w w' : World) (m : ModuleScope) :
  moduleInit w = (Ok m, w') ->
  (forall globals : gmap string GlobalValue, window w = Some globals ->
     exists globals' : gmap string GlobalValue,
       window w' = Some globals' /\
       globals' !! "supabase" = Some (GClient (m_supabase m)) /\
       globals' !! "testSupabaseConnection" =
         Some (GProbe (m_isSupabaseConfigured m) (m_supabase m)) /\
       call_global (GProbe (m_isSupabaseConfigured m) (m_supabase m)) =
         Some (testSupabaseConnection (m_isSupabaseConfigured m) (m_supabase m)) /\
       (forall name, name <> "supabase" -> name <> "testSupabaseConnection" ->
          globals' !! name = globals !! name)) /\
  (window w = None -> window w' = None).
Proof.
  intros H. module_run w H.
  cbn [window m_supabase m_isSupabaseConfigured]. split.
  - intros globals ->. eexists. split; [reflexivity|]. unfold expose.
    split; [by rewrite lookup_insert_eq|].
    split; [rewrite lookup_insert_ne by done; by rewrite lookup_insert_eq|].
    split; [done|].
    intros name H1 H2. by rewrite !lookup_insert_ne.
  - by intros ->.
Qed.

(** C8. A world with a global scope in which [createClient] raises: the
    evaluation of the module ends at line 76, and neither "supabase" nor
    "testSupabaseConnection" is bound on the global scope. *)
Theorem exposure_skipped_on_raise :
  is_Some (window (malformed_world answers_rows)) /\
  exists e w' (globals : gmap string GlobalValue),
    moduleInit (malformed_world answers_rows) = (Throw e, w') /\
    window w' = Some globals /\
    globals !! "supabase" = None /\
    globals !! "testSupabaseConnection" = None.
Proof.
  split; [by eexists|]. eexists _, _, _.
  split; [vm_compute; reflexivity|]. split; [reflexivity|]. by split.
Qed.

(** C9. The URL bound into the handle always starts with "https://", and the
    validity flag is false exactly when that URL contains "placeholder". *)
Theorem handle_url_invariant (w w' : World) (m : ModuleScope) :
  moduleInit w = (Ok m, w') ->
  (exists r, handle_url (m_supabase m) = "https://" +:+ r) /\
  (m_isSupabaseConfigured m = false <->
     exists a b, handle_url (m_supabase m) = a +:+ "placeholder" +:+ b).
Proof.
  intros H. module_run w H.
  cbn [m_supabase m_isSupabaseConfigured handle_url].
  set (u := first_nonempty _ _). set (k := first_nonempty _ _).
  destruct (isSupabaseConfigured u k) eqn:Hc.
  - apply isSupabaseConfigured_iff in Hc.
    destruct Hc as (_ & _ & Hno & _ & Hhttps & _).
    split; [done|]. split; [done | intros Hin; by destruct Hno].
  - split; [by exists "placeholder-project.supabase.co"|].
    split; [|done]. intros _. by exists "https://", "-project.supabase.co".
Qed.

Lemma handle_url_invariant_witness :
  (exists r, handle_url (m_supabase bare_scope) = "https://" +:+ r) /\
  (m_isSupabaseConfigured bare_scope = false <->
     exists a b, handle_url (m_supabase bare_scope) = a +:+ "placeholder" +:+ b).
Proof.
  apply (handle_url_invariant (bare_world answers_rows)
           (snd (moduleInit (bare_world answers_rows))) bare_scope).
  vm_compute. reflexivity.
Defined.
(** ** The connectivity probe *)

Lemma get_prop_not_nullish (v : JSValue) (name : string) :
  nullish v = false -> exists x, get_prop v name = Ok x.
Proof. destruct v; simpl; intros H; try discriminate; by eexists. Qed.

Lemma truthy_not_nullish (v : JSValue) : truthy v = true -> nullish v = false.
Proof. by destruct v. Qed.

Lemma probe_query_shape (supabase : Handle) :
  q_client (probe_query supabase) = supabase /\
  q_from (probe_query supabase) = "profiles" /\
  read_only (q_op (probe_query supabase)) = true /\
  q_limit (probe_query supabase) = Some 1.
Proof. by repeat split. Qed.

(** Unfolds a call of the configured probe down to the backend's answer. *)
Ltac probe_unfold :=
  unfold testSupabaseConnection, try_catch, bind, await_query, complete,
    console_error, console_log, ret;
  cbn [negb].

(** Splits on what the backend answers, on the destructuring of the
    response and on the truthiness of [error]. *)
Ltac probe_cases supabase w :=
  probe_unfold;
  let response := fresh "response" in
  let reason := fresh "reason" in
  let data := fresh "data" in
  let error := fresh "error" in
  let thrown := fresh "thrown" in
  let Hb := fresh "Hbackend" in
  let Hd := fresh "Hfields" in
  let Ht := fresh "Herror" in
  destruct (backend w (probe_query supabase)) as [response|reason] eqn:Hb;
    [ destruct (destructure_data_error response) as [[data error]|thrown] eqn:Hd;
      cbn [fst snd];
      [ destruct (truthy error) eqn:Ht | ]
    | ].

(** C2. With a false validity flag the probe returns exactly
    [{success: false, error: "Not configured"}], issues no query, and its only
    effect is one line on the error console. *)
Theorem probe_not_configured (supabase : Handle) (w : World) :
  exists w',
    testSupabaseConnection false supabase w =
      (Ok (JSObj [("success", JSBool false); ("error", JSStr "Not configured")]), w') /\
    queries w' = queries w /\
    console w' =
      (console w ++ [ConsoleError [JSStr "Cannot test connection: Supabase not configured"]])%list /\
    window w' = window w.
Proof. eexists. by repeat split. Qed.

(** With a true validity flag the probe issues exactly one query, whatever
    the backend answers: a read of "profiles" limited to one record, through
    the module's handle. *)
Lemma probe_issues_one_query (supabase : Handle) (w : World) :
  exists r w', testSupabaseConnection true supabase w = (r, w') /\
    queries w' = (queries w ++ [probe_query supabase])%list.
Proof.
  probe_cases supabase w; cbn;
    repeat match goal with
    | |- context [get_prop ?v ?n] => destruct (get_prop v n)
    end; by eexists _, _.
Qed.

(** A response whose [error] is falsy gives [{success: true, data}]. *)
Lemma probe_success (supabase : Handle) (w : World) (data error : JSValue) :
  answered_with w supabase data error ->
  truthy error = false ->
  exists w', testSupabaseConnection true supabase w =
    (Ok (JSObj [("success", JSBool true); ("data", data)]), w').
Proof.
  intros (resp & Hr & Hd) Ht. probe_unfold.
  rewrite Hr, Hd. cbn [fst snd]. rewrite Ht. by eexists.
Qed.

(** X8. A response whose [error] is truthy gives
    [{success: false, error: error.message}]. *)
Lemma probe_error_object (supabase : Handle) (w : World) (data error : JSValue) :
  answered_with w supabase data error ->
  truthy error = true ->
  exists message w',
    get_prop error "message" = Ok message /\
    testSupabaseConnection true supabase w =
      (Ok (JSObj [("success", JSBool false); ("error", message)]), w').
Proof.
  intros (resp & Hr & Hd) Ht.
  destruct (get_prop_not_nullish error "message" (truthy_not_nullish _ Ht)) as (msg & Hm).
  exists msg. probe_unfold.
  rewrite Hr, Hd. cbn [fst snd]. rewrite Ht, Hm. by eexists.
Qed.

(** X9. A raised value other than [undefined] and [null] is caught and gives
    [{success: false, error: e.message}]. *)
Lemma probe_raised_object (supabase : Handle) (w : World) (e : JSValue) :
  raised_in_probe w supabase e ->
  nullish e = false ->
  exists message w',
    get_prop e "message" = Ok message /\
    testSupabaseConnection true supabase w =
      (Ok (JSObj [("success", JSBool false); ("error", message)]), w').
Proof.
  intros Hraised Hn.
  destruct (get_prop_not_nullish e "message" Hn) as (msg & Hm).
  exists msg.
  destruct Hraised as [Hr|(resp & Hr & Hd)]; probe_unfold.
  - rewrite Hr, Hm. by eexists.
  - rewrite Hr, Hd, Hm. by eexists.
Qed.

(** A raised [undefined] or [null] is caught, but reading its [message] in
    the handler raises a TypeError, with which the probe's promise rejects. *)
Lemma probe_raised_nullish (supabase : Handle) (w : World) (e : JSValue) :
  backend w (probe_query supabase) = Rejects e ->
  nullish e = true ->
  exists message w',
    testSupabaseConnection true supabase w = (Throw (TypeError message), w').
Proof.
  intros Hr Hn. probe_unfold. rewrite Hr.
  destruct e; try discriminate; cbn; by eexists _, _.
Qed.




(** C10. Every value the probe returns has a boolean [success] field.  With
    [success] true it has a [data] field, no [error] field, and the validity
    flag is true.  With [success] false it has an [error] field and no
    [data] field, and the [error] is the string "Not configured" or the
    [message] of the reported error object. *)
Theorem probe_result_shape (isConfigured : bool) (supabase : Handle)
    (w w' : World) (v : JSValue) :
  testSupabaseConnection isConfigured supabase w = (Ok v, w') ->
  exists b,
    has_field v "success" = true /\
    get_prop v "success" = Ok (JSBool b) /\
    (b = true ->
       has_field v "data" = true /\ has_field v "error" = false /\ isConfigured = true) /\
    (b = false ->
       has_field v "error" = true /\ has_field v "data" = false /\
       (get_prop v "error" = Ok (JSStr "Not configured") \/
        exists e, reported_error w supabase e /\ get_prop e "message" = get_prop v "error")).
Proof.
  destruct isConfigured.
  - unfold reported_error, raised_in_probe, answered_with.
    probe_cases supabase w.
    + destruct (get_prop error "message") as [message|e] eqn:Hm.
      * intros [= <- _]. exists false. repeat split; try done.
        right. exists error. split; [|done]. left. exists data. split; [|done].
        by exists response.
      * destruct (get_prop_not_nullish error "message" (truthy_not_nullish _ Herror))
          as (x & Hx). congruence.
    + intros [= <- _]. exists true. by repeat split.
    + destruct (get_prop thrown "message") as [message|e] eqn:Hm; [|done].
      intros [= <- _]. exists false. repeat split; try done.
      right. exists thrown. split; [|done]. right. right. by exists response.
    + destruct (get_prop reason "message") as [message|e] eqn:Hm; [|done].
      intros [= <- _]. exists false. repeat split; try done.
      right. exists reason. split; [|done]. right. by left.
  - intros [= <- _]. exists false. repeat split; try done. by left.
Qed.

Lemma probe_result_shape_witness :
  let supabase := sample_client in
  let w := vite_world answers_rows in
  let v := JSObj [("success", JSBool true); ("data", JSArr [row])] in
  testSupabaseConnection true supabase w =
    (Ok v, snd (testSupabaseConnection true supabase w)) /\
  exists b,
    has_field v "success" = true /\
    get_prop v "success" = Ok (JSBool b) /\
    (b = true ->
       has_field v "data" = true /\ has_field v "error" = false /\ true = true) /\
    (b = false ->
       has_field v "error" = true /\ has_field v "data" = false /\
       (get_prop v "error" = Ok (JSStr "Not configured") \/
        exists e, reported_error w supabase e /\ get_prop e "message" = get_prop v "error")).
Proof.
  intros supabase w v. split; [vm_compute; reflexivity|].
  apply (probe_result_shape true supabase w (snd (testSupabaseConnection true supabase w)) v).
  vm_compute. reflexivity.
Defined.

(** ** The specification's sample cases *)

(** Empty URL and empty key: the flag is false and the handle is built from
    both placeholder literals. *)
Example unconfigured_module :
  fst (moduleInit (bare_world answers_rows)) =
    Ok {| m_supabaseUrl := ""; m_supabaseAnonKey := "";
          m_isSupabaseConfigured := false;
          m_clientUrl := "https://placeholder-project.supabase.co";
          m_clientKey := "placeholder-key";
          m_supabase :=
            {| handle_id := 0;
               handle_url := "https://placeholder-project.supabase.co";
               handle_key := "placeholder-key" |} |}.
Proof. vm_compute. reflexivity. Qed.

(** A well-formed URL and a 41-character key: the flag is true and the handle
    carries exactly these values. *)
Example configured_module :
  String.length sample_key = 41 /\
  fst (moduleInit (vite_world answers_rows)) =
    Ok {| m_supabaseUrl := "https://abc.supabase.co"; m_supabaseAnonKey := sample_key;
          m_isSupabaseConfigured := true;
          m_clientUrl := "https://abc.supabase.co";
          m_clientKey := sample_key;
          m_supabase := sample_client |}.
Proof. split; vm_compute; reflexivity. Qed.

(** The placeholder URL is rejected whatever the key, a URL with the scheme
    [http://] as well, and the key must have more than 20 code units. *)
Example validator_samples :
  isSupabaseConfigured "https://placeholder-project.supabase.co" sample_key = false /\
  isSupabaseConfigured "http://abc.supabase.co" sample_key = false /\
  isSupabaseConfigured "https://abc.supabase.co" "12345678901234567890" = false /\
  isSupabaseConfigured "https://abc.supabase.co" "123456789012345678901" = true.
Proof. by repeat split. Qed.

(** The probe on a backend that answers rows, answers an error object, and
    raises an error with a message. *)
Example probe_samples :
  let supabase := sample_client in
  fst (testSupabaseConnection true supabase (vite_world answers_rows)) =
    Ok (JSObj [("success", JSBool true); ("data", JSArr [row])]) /\
  fst (testSupabaseConnection true supabase (vite_world answers_error)) =
    Ok (JSObj [("success", JSBool false); ("error", JSStr "relation does not exist")]) /\
  fst (testSupabaseConnection true supabase (vite_world raises_error)) =
    Ok (JSObj [("success", JSBool false); ("error", JSStr "Failed to fetch")]).
Proof. by repeat split. Qed.


(** The sample library raises on a space in the host, not on one in the
    path, and returns on the sample and placeholder pairs. *)
Example parsing_library_samples :
  is_Some (parsing_library "https://abc def" sample_key) /\
  parsing_library "https://abc.supabase.co/a b" sample_key = None /\
  parsing_library "https://abc.supabase.co" sample_key = None /\
  parsing_library "https://placeholder-project.supabase.co" "placeholder-key" = None.
Proof. split; [by eexists | by repeat split]. Qed.

(** A URL the validator accepts and the library cannot parse: the evaluation
    raises after the two lines of the emitter, and the global scope is as it
    was. *)
Example malformed_module :
  exists e w',
    moduleInit (malformed_world answers_rows) = (Throw e, w') /\
    (length (console w') = 2) /\
    (window w' = Some ∅).
Proof. eexists _, _. split; [vm_compute; reflexivity|]. by split. Qed.
(** * Further properties of the module *)

(** ** The validator *)

(** X1. Three of the six tests decide the flag: a URL that starts with
    "https://" is non-empty and of positive length, and a key longer than 20
    is non-empty. *)
Theorem validator_three_tests (supabaseUrl supabaseAnonKey : string) :
  isSupabaseConfigured supabaseUrl supabaseAnonKey =
    startsWith "https://" supabaseUrl
    && negb (includes "placeholder" supabaseUrl)
    && (20 <? String.length supabaseAnonKey)%nat.
Proof.
  unfold isSupabaseConfigured. rewrite !js_and_truthy. cbn [truthy].
  destruct supabaseUrl as [|c u]; [done|].
  destruct supabaseAnonKey as [|d k].
  - cbn [String.eqb negb andb String.length Nat.ltb Nat.leb].
    by rewrite !andb_false_r.
  - cbn [String.eqb negb andb String.length].
    change (0 <? S (String.length u))%nat with true.
    destruct (startsWith "https://" (String c u)),
      (includes "placeholder" (String c u)); reflexivity.
Qed.

(** ** Running the module *)

(** X2. [createClient] is always called with two non-empty strings, and the
    key of the handle is the literal "placeholder-key" exactly when the flag
    is false. *)
Theorem handle_arguments (w w' : World) (m : ModuleScope) :
  moduleInit w = (Ok m, w') ->
  handle_url (m_supabase m) <> "" /\
  handle_key (m_supabase m) <> "" /\
  (m_isSupabaseConfigured m = false <-> handle_key (m_supabase m) = "placeholder-key").
Proof.
  intros H. module_run w H.
  cbn [m_supabase m_isSupabaseConfigured handle_url handle_key].
  set (u := first_nonempty _ _). set (k := first_nonempty _ _).
  destruct (isSupabaseConfigured u k) eqn:Hc.
  - apply isSupabaseConfigured_iff in Hc. destruct Hc as (Hu & Hk & _ & _ & _ & Hlen).
    repeat split; try done. intros ->. cbn in Hlen. lia.
  - by repeat split.
Qed.

Lemma handle_arguments_witness :
  handle_url (m_supabase vite_scope) <> "" /\
  handle_key (m_supabase vite_scope) <> "" /\
  (m_isSupabaseConfigured vite_scope = false <->
     handle_key (m_supabase vite_scope) = "placeholder-key").
Proof.
  apply (handle_arguments (vite_world answers_rows)
           (snd (moduleInit (vite_world answers_rows))) vite_scope).
  vm_compute. reflexivity.
Defined.

(** X3. An evaluation of the module, whether it completes or raises at
    [createClient], issues no query and leaves the two environment sources,
    the library and the backend as they were. *)
Theorem initialisation_is_offline (w : World) :
  exists r w', moduleInit w = (r, w') /\
    queries w' = queries w /\ backend w' = backend w /\ library w' = library w /\
    import_meta w' = import_meta w /\ process w' = process w.
Proof.
  destruct (moduleInit_run w) as (entries & Hrun). cbn zeta in Hrun.
  destruct Hrun as (_ & ->).
  destruct (library w _ _); eexists _, _; by repeat split.
Qed.

(** X4. With a true flag, initialisation writes exactly two console lines: a
    banner that does not depend on the world, and "Connected to:" with the
    URL of the handle. *)
Theorem configured_diagnostics :
  exists banner, forall (w w' : World) (m : ModuleScope),
    moduleInit w = (Ok m, w') ->
    m_isSupabaseConfigured m = true ->
    console w' =
      (console w ++
         [ConsoleLog banner;
          ConsoleLog [JSStr "Connected to:"; JSStr (handle_url (m_supabase m))]])%list.
Proof.
  destruct logStatus_configured as (banner & Hbanner). exists banner.
  intros w w' m H Hc. module_run w H.
  cbn [m_isSupabaseConfigured] in Hc. rewrite Hc in Hlog |- *.
  rewrite Hbanner in Hlog. injection Hlog as Hlog.
  cbn [console m_supabase handle_url]. by apply app_inv_head in Hlog as <-.
Qed.

Lemma configured_diagnostics_witness :
  exists banner,
    console (snd (moduleInit (vite_world answers_rows))) =
      [ConsoleLog banner;
       ConsoleLog [JSStr "Connected to:"; JSStr "https://abc.supabase.co"]].
Proof.
  destruct configured_diagnostics as (banner & Hbanner). exists banner.
  apply (Hbanner (vite_world answers_rows)
           (snd (moduleInit (vite_world answers_rows))) vite_scope);
    vm_compute; reflexivity.
Defined.

(** X5. With a false flag, initialisation writes exactly eight lines with
    [console.log].  Seven do not depend on the world; the second is "Checked for:"
    with a report that marks each of the four variable names as found exactly
    when some environment source defines it non-empty. *)
Theorem unconfigured_diagnostics :
  exists alert remediation,
    length remediation = 6 /\
    forall (w w' : World) (m : ModuleScope),
      moduleInit w = (Ok m, w') ->
      m_isSupabaseConfigured m = false ->
      exists report,
        console w' =
          (console w ++
             ConsoleLog alert :: ConsoleLog [JSStr "Checked for:"; JSObj report] ::
             List.map ConsoleLog remediation)%list /\
        forall name,
          name ∈ ["VITE_SUPABASE_URL"; "VITE_SUPABASE_ANON_KEY";
                  "SUPABASE_URL"; "SUPABASE_ANON_KEY"] ->
          (own_prop report name = Some (JSStr "✓ Found") /\ found_in w name) \/
          (own_prop report name = Some (JSStr "✗ Missing") /\ ~ found_in w name).
Proof.
  destruct logStatus_unconfigured as (alert & remediation & Hlen & Hrep).
  exists alert, remediation. split; [exact Hlen|].
  intros w w' m H Hc. module_run w H.
  cbn [m_isSupabaseConfigured] in Hc. rewrite Hc in Hlog.
  rewrite Hrep in Hlog. injection Hlog as Hlog. apply app_inv_head in Hlog as <-.
  eexists. split; [reflexivity|].
  intros name Hname. unfold status_of.
  assert (forall key, truthy (JSStr (resolve w key)) = true <-> found_in w key) as Hfound.
  { intros key. by rewrite truthy_JSStr, resolve_nonempty_found. }
  repeat (apply elem_of_cons in Hname as [->|Hname]);
    [| | | | by apply elem_of_nil in Hname];
    cbn [own_prop String.eqb Ascii.eqb Bool.eqb];
    match goal with
    | |- context [truthy (JSStr (resolve w ?key))] =>
        specialize (Hfound key);
        destruct (truthy (JSStr (resolve w key)));
        [ left; split; [reflexivity | by apply Hfound]
        | right; split; [reflexivity | intros Hf; by apply Hfound in Hf] ]
    end.
Qed.

Lemma unconfigured_diagnostics_witness :
  exists alert remediation report,
    length remediation = 6 /\
    console (snd (moduleInit (bare_world answers_rows))) =
      ConsoleLog alert :: ConsoleLog [JSStr "Checked for:"; JSObj report] ::
      List.map ConsoleLog remediation.
Proof.
  destruct unconfigured_diagnostics as (alert & remediation & Hlen & Hrep).
  destruct (Hrep (bare_world answers_rows)
              (snd (moduleInit (bare_world answers_rows))) bare_scope)
    as (report & Hconsole & _); [vm_compute; reflexivity | reflexivity |].
  exists alert, remediation, report. split; [exact Hlen | exact Hconsole].
Defined.

(** X6. With a true flag, the URL and the key of the handle are values that
    an environment source defines under one of the two names of that key:
    the credentials come from the environment and from nowhere else. *)
Theorem credentials_from_environment (w w' : World) (m : ModuleScope) :
  moduleInit w = (Ok m, w') ->
  m_isSupabaseConfigured m = true ->
  (exists name,
     (name = "VITE_SUPABASE_URL" \/ name = "SUPABASE_URL") /\
     (defines (import_meta w) name (handle_url (m_supabase m)) \/
      defines (process w) name (handle_url (m_supabase m)))) /\
  (exists name,
     (name = "VITE_SUPABASE_ANON_KEY" \/ name = "SUPABASE_ANON_KEY") /\
     (defines (import_meta w) name (handle_key (m_supabase m)) \/
      defines (process w) name (handle_key (m_supabase m)))).
Proof.
  intros H Hc. module_run w H.
  cbn [m_isSupabaseConfigured m_supabase] in Hc |- *. rewrite Hc.
  cbn [handle_url handle_key].
  apply isSupabaseConfigured_iff in Hc. destruct Hc as (Hu & Hk & _).
  split.
  - destruct (first_nonempty_cases _ _ Hu) as [[Hne ->]|[Hne ->]].
    + exists "VITE_SUPABASE_URL". split; [by left | by apply resolve_defines].
    + exists "SUPABASE_URL". split; [by right | by apply resolve_defines].
  - destruct (first_nonempty_cases _ _ Hk) as [[Hne ->]|[Hne ->]].
    + exists "VITE_SUPABASE_ANON_KEY". split; [by left | by apply resolve_defines].
    + exists "SUPABASE_ANON_KEY". split; [by right | by apply resolve_defines].
Qed.

Lemma credentials_from_environment_witness :
  (exists name,
     (name = "VITE_SUPABASE_URL" \/ name = "SUPABASE_URL") /\
     (defines (import_meta (node_world answers_rows)) name "https://abc.supabase.co" \/
      defines (process (node_world answers_rows)) name "https://abc.supabase.co")) /\
  (exists name,
     (name = "VITE_SUPABASE_ANON_KEY" \/ name = "SUPABASE_ANON_KEY") /\
     (defines (import_meta (node_world answers_rows)) name sample_key \/
      defines (process (node_world answers_rows)) name sample_key)).
Proof.
  apply (credentials_from_environment (node_world answers_rows)
           (snd (moduleInit (node_world answers_rows))) vite_scope);
    vm_compute; reflexivity.
Defined.

(** ** Further properties of the probe *)

Lemma probe_error_object_witness :
  exists message w',
    get_prop (JSObj [("message", JSStr "relation does not exist")]) "message" =
      Ok message /\
    testSupabaseConnection true sample_client
      (vite_world answers_error) =
      (Ok (JSObj [("success", JSBool false); ("error", message)]), w').
Proof.
  apply (probe_error_object _ (vite_world answers_error) JSNull); [|reflexivity].
  eexists. split; reflexivity.
Defined.

Lemma probe_raised_object_witness :
  exists message w',
    get_prop (JSObj [("name", JSStr "Error"); ("message", JSStr "Failed to fetch")])
      "message" = Ok message /\
    testSupabaseConnection true sample_client
      (vite_world raises_error) =
      (Ok (JSObj [("success", JSBool false); ("error", message)]), w').
Proof.
  apply (probe_raised_object _ (vite_world raises_error)); [|reflexivity].
  left. reflexivity.
Defined.

(** X10. A query that resolves with [undefined] or [null] instead of a
    response object is reported as a failure: destructuring it raises a
    TypeError inside the [try] block, whose message becomes the [error]. *)
Theorem probe_nullish_response (supabase : Handle) (w : World) (response : JSValue) :
  backend w (probe_query supabase) = Resolves response ->
  nullish response = true ->
  exists message w',
    testSupabaseConnection true supabase w =
      (Ok (JSObj [("success", JSBool false); ("error", JSStr message)]), w').
Proof.
  intros Hr Hn. probe_unfold. rewrite Hr.
  unfold destructure_data_error. rewrite Hn. cbn. by eexists _, _.
Qed.

Lemma probe_nullish_response_witness :
  exists message w',
    testSupabaseConnection true sample_client
      (vite_world answers_undefined) =
      (Ok (JSObj [("success", JSBool false); ("error", JSStr message)]), w').
Proof.
  apply (probe_nullish_response _ (vite_world answers_undefined) JSUndefined);
    reflexivity.
Defined.

(** X11. The promise of the probe rejects in one case only: the flag is true
    and the query raises [undefined] or [null].  In every other case the
    probe returns a value. *)
Theorem probe_rejects_iff (isConfigured : bool) (supabase : Handle) (w : World) :
  (exists e w', testSupabaseConnection isConfigured supabase w = (Throw e, w')) <->
  isConfigured = true /\
  exists reason, backend w (probe_query supabase) = Rejects reason /\ nullish reason = true.
Proof.
  split.
  - intros (e & w' & H). destruct isConfigured; [|discriminate].
    split; [done|]. revert H. probe_cases supabase w.
    + destruct (get_prop_not_nullish error "message" (truthy_not_nullish _ Herror))
        as (x & ->). discriminate.
    + discriminate.
    + unfold destructure_data_error in Hfields.
      destruct (nullish response) eqn:Hn.
      * injection Hfields as <-. discriminate.
      * destruct (get_prop_not_nullish response "data" Hn) as (d & Hd).
        destruct (get_prop_not_nullish response "error" Hn) as (x & Hx).
        rewrite Hd, Hx in Hfields. discriminate.
    + intros H. exists reason. split; [done|].
      destruct (nullish reason) eqn:Hn; [done|].
      destruct (get_prop_not_nullish reason "message" Hn) as (x & Hx).
      rewrite Hx in H. discriminate.
  - intros (-> & reason & Hr & Hn).
    destruct (probe_raised_nullish supabase w reason Hr Hn) as (msg & w' & H).
    by eexists _, _.
Qed.

(** X12. Every invocation of the probe writes exactly one console line,
    whatever the outcome; the line goes to [console.log] exactly when the
    probe returns [{success: true, data}], and to [console.error] otherwise. *)
Theorem probe_logs_once (isConfigured : bool) (supabase : Handle) (w : World) :
  exists r w' entry,
    testSupabaseConnection isConfigured supabase w = (r, w') /\
    console w' = (console w ++ [entry])%list /\
    ((exists args, entry = ConsoleLog args) <->
     (exists data, r = Ok (JSObj [("success", JSBool true); ("data", data)]))).
Proof.
  assert (forall (r : Result JSValue) (w' : World) (entry : ConsoleEntry),
            console w' = (console w ++ [entry])%list ->
            ((exists args, entry = ConsoleLog args) <->
             (exists data, r = Ok (JSObj [("success", JSBool true); ("data", data)]))) ->
            exists r0 w0 entry0,
              (r, w') = (r0, w0) /\
              console w0 = (console w ++ [entry0])%list /\
              ((exists args, entry0 = ConsoleLog args) <->
               (exists data, r0 = Ok (JSObj [("success", JSBool true); ("data", data)]))))
    as Hpack by (intros r w' entry H1 H2; by exists r, w', entry).
  assert (forall (args : list JSValue) (r : Result JSValue),
            (forall data, r <> Ok (JSObj [("success", JSBool true); ("data", data)])) ->
            (exists args0, ConsoleError args = ConsoleLog args0) <->
            (exists data, r = Ok (JSObj [("success", JSBool true); ("data", data)])))
    as Herr.
  { intros args r Hr. split; [by intros [? ?] | intros [data Hd]; by destruct (Hr data)]. }
  destruct isConfigured.
  - probe_cases supabase w.
    + destruct (get_prop_not_nullish error "message" (truthy_not_nullish _ Herror))
        as (x & ->).
      eapply Hpack; [reflexivity | by apply Herr].
    + eapply Hpack; [reflexivity|]. split; intros _; by eexists.
    + destruct (get_prop thrown "message");
        (eapply Hpack; [reflexivity | by apply Herr]).
    + destruct (get_prop reason "message");
        (eapply Hpack; [reflexivity | by apply Herr]).
  - probe_unfold. eapply Hpack; [reflexivity | by apply Herr].
Qed.

(** X13. The probe leaves the environment sources, the global scope and the
    backend as they are, and issues at most one query: none with a false
    flag, and with a true flag the read-only query on "profiles", limited to
    one record, through the handle it closes over -- whatever the backend
    answers, also when the promise rejects. *)
Theorem probe_footprint (isConfigured : bool) (supabase : Handle) (w : World) :
  exists r w',
    testSupabaseConnection isConfigured supabase w = (r, w') /\
    import_meta w' = import_meta w /\ process w' = process w /\
    window w' = window w /\ backend w' = backend w /\
    queries w' =
      (queries w ++
         if isConfigured
         then [{| q_client := supabase; q_from := "profiles";
                  q_op := OpSelect "*"; q_limit := Some 1 |}]
         else [])%list.
Proof.
  destruct isConfigured.
  - probe_cases supabase w; cbn;
      repeat match goal with
      | |- context [get_prop ?v ?n] => destruct (get_prop v n)
      end;
      eexists _, _; by repeat split.
  - eexists _, _. split; [reflexivity|]. cbn. rewrite app_nil_r. by repeat split.
Qed.


(** X15. The probe of an initialised module never queries through the
    placeholder handle: with a false flag it issues nothing, in whatever
    world it is called, and with a true flag its one query goes through the
    module's handle, which is bound to the resolved URL and key, the URL
    being free of "placeholder". *)
Theorem probe_uses_resolved_credentials (w w1 w2 : World) (m : ModuleScope) :
  moduleInit w = (Ok m, w1) ->
  exists r w3,
    testSupabaseConnection (m_isSupabaseConfigured m) (m_supabase m) w2 = (r, w3) /\
    (m_isSupabaseConfigured m = false -> queries w3 = queries w2) /\
    (m_isSupabaseConfigured m = true ->
       exists q,
         queries w3 = (queries w2 ++ [q])%list /\
         q_client q = m_supabase m /\
         handle_url (q_client q) = m_supabaseUrl m /\
         handle_key (q_client q) = m_supabaseAnonKey m /\
         ~ (exists a b, handle_url (q_client q) = a +:+ "placeholder" +:+ b)).
Proof.
  intros H. module_run w H.
  cbn [m_isSupabaseConfigured m_supabase m_supabaseUrl m_supabaseAnonKey].
  set (u := first_nonempty _ _). set (k := first_nonempty _ _).
  destruct (isSupabaseConfigured u k) eqn:Hc.
  - match goal with
    | |- context [testSupabaseConnection true ?h] =>
        destruct (probe_issues_one_query h w2) as (r & w3 & Hp & Hq);
        exists r, w3; split; [exact Hp|]; split; [done|]; intros _;
        exists (probe_query h)
    end.
    split; [exact Hq|]. do 3 (split; [reflexivity|]).
    apply isSupabaseConfigured_iff in Hc. by destruct Hc as (_ & _ & Hno & _).
  - eexists _, _. split; [reflexivity|]. split; [done | discriminate].
Qed.

Lemma probe_uses_resolved_credentials_witness :
  exists r w3,
    testSupabaseConnection true sample_client (vite_world raises_error) = (r, w3) /\
    (true = false -> queries w3 = []) /\
    (true = true ->
       exists q,
         queries w3 = [q] /\
         q_client q = sample_client /\
         handle_url (q_client q) = "https://abc.supabase.co" /\
         handle_key (q_client q) = sample_key /\
         ~ (exists a b, handle_url (q_client q) = a +:+ "placeholder" +:+ b)).
Proof.
  apply (probe_uses_resolved_credentials (vite_world answers_rows)
           (snd (moduleInit (vite_world answers_rows)))
           (vite_world raises_error) vite_scope).
  vm_compute. reflexivity.
Defined.
